(** * ProjectHeader.vue: the script of the project header component

    A shallow embedding of
    [packages/frontend/editor-ui/src/components/Projects/ProjectHeader.vue]:
    the computed properties are functions of the state the component
    reads (the three Pinia stores, the current route, the overview
    composable); the two operations with an effect, [router.push] and
    [emit], run in a small state-and-exception monad over a [World] that
    holds the stores next to the navigation and event logs. *)

From stdpp Require Import base option list strings gmap fin_maps.

Open Scope string_scope.
Open Scope list_scope.

(** ** Data read by the component *)

(** A scope is a permission token such as ["workflow:create"]. *)
Definition Scope := string.

(** Modelled from the spec: [ProjectTypes] of [@/types/projects.types],
    which is not among the sources.  The component names [Personal] and
    [Team]; every other type of project is [Other]. *)
Inductive ProjectTypes := Personal | Team | Other.

#[global] Instance ProjectTypes_eq_dec : EqDecision ProjectTypes.
Proof. solve_decision. Defined.

(** [ProjectIcon] of [@/types/projects.types]: the object literals of
    [headerIcon] give its two fields. *)
Module ProjectIcon.
Record t := mk { type : string; value : string }.
End ProjectIcon.

#[global] Instance ProjectIcon_eq_dec : EqDecision ProjectIcon.t.
Proof. solve_decision. Defined.

(** The fields of a project that the component reads.  [name] and
    [icon] are nullable. *)
Module Project.
Record t := mk {
  id : string;
  name : option string;
  type : ProjectTypes;
  icon : option ProjectIcon.t;
  scopes : list Scope
}.
End Project.

(** The members of [VIEWS] ([@/constants]) the component names; any
    other route name is [OTHER_VIEW]. *)
Inductive VIEWS :=
| NEW_WORKFLOW
| PROJECTS_WORKFLOWS
| PROJECTS_FOLDERS
| PROJECTS_CREDENTIALS
| PROJECT_SETTINGS
| OTHER_VIEW (viewName : string).

#[global] Instance VIEWS_eq_dec : EqDecision VIEWS.
Proof. solve_decision. Defined.

(** The current route, [useRoute()]: its name (which may be undefined)
    and its params, an object used as a map from names to strings. *)
Module Route.
Record t := mk {
  name : option VIEWS;
  params : gmap string string
}.
End Route.

(** The pieces of the three stores and of [useOverview()] that are read. *)
Record ProjectsStore := {
  currentProject : option Project.t;
  personalProject : option Project.t
}.

Record SourceControlPreferences := { branchReadOnly : bool }.
Record SourceControlStore := { preferences : SourceControlPreferences }.
Record SettingsStore := { isFoldersFeatureEnabled : bool }.
Record Overview := { isOverviewSubPage : bool }.

(** Modelled from the spec: the capability record returned by
    [getResourcePermissions] ([@/permissions], not among the sources):
    one record of capabilities per resource.  A capability that was not
    granted may be missing from the object, hence [option]; the source
    reads every capability through [!] or [!!]. *)
Record ResourceOperations := {
  create : option bool;
  update : option bool
}.

Record PermissionsRecord := {
  project : ResourceOperations;
  workflow : ResourceOperations;
  credential : ResourceOperations;
  folder : ResourceOperations
}.

(** ** JavaScript truthiness of the values that are tested *)

(** [!!s] of a string. *)
Definition truthy_string (s : string) : bool :=
  if decide (s = "") then false else true.

(** [!!v] of a possibly undefined or null string. *)
Definition truthy_opt_string (v : option string) : bool :=
  match v with
  | Some s => truthy_string s
  | None => false
  end.

(** [!!v] of a possibly undefined boolean. *)
Definition truthy (v : option bool) : bool :=
  match v with
  | Some b => b
  | None => false
  end.

(** ** Effects: navigation and the emitted event *)

(** The argument of [router.push]: a route name with an optional query
    and optional params.  A key of the query can hold [undefined], as
    [parentFolderId] does outside a folder. *)
Module RouteLocationRaw.
Record t := mk {
  name : VIEWS;
  query : option (gmap string (option string));
  params : option (gmap string string)
}.
End RouteLocationRaw.

(** [defineEmits]: the one event of the component, without payload. *)
Inductive Emits := createFolder.

(** Everything the script can reach: the stores and the reactive
    objects it was given, the calls made on the router and the events
    emitted so far (oldest first). *)
Record World := {
  projectsStore : ProjectsStore;
  sourceControlStore : SourceControlStore;
  settingsStore : SettingsStore;
  route : Route.t;
  overview : Overview;
  pushed : list RouteLocationRaw.t;
  emitted : list Emits
}.

(** Calling a value that is not a function. *)
Inductive Exception := TypeError.

Inductive Outcome (A : Type) :=
| Returned (a : A)
| Thrown (e : Exception).
Arguments Returned {A} a.
Arguments Thrown {A} e.

(** A computation of the script: it runs in a world and leaves a world. *)
Definition Eff (A : Type) : Type := World -> Outcome A * World.

#[global] Instance Eff_ret : MRet Eff := fun A a w => (Returned a, w).

#[global] Instance Eff_bind : MBind Eff := fun A B f m w =>
  match m w with
  | (Returned a, w') => f a w'
  | (Thrown e, w') => (Thrown e, w')
  end.

Definition gets {A} (f : World -> A) : Eff A := fun w => (Returned (f w), w).

Definition throw {A} (e : Exception) : Eff A := fun w => (Thrown e, w).

(** The world after one more call of the router, or one more event. *)
Definition withPushed (to : RouteLocationRaw.t) (w : World) : World :=
  {| projectsStore := projectsStore w;
     sourceControlStore := sourceControlStore w;
     settingsStore := settingsStore w;
     route := route w;
     overview := overview w;
     pushed := pushed w ++ [to];
     emitted := emitted w |}.

Definition withEmitted (event : Emits) (w : World) : World :=
  {| projectsStore := projectsStore w;
     sourceControlStore := sourceControlStore w;
     settingsStore := settingsStore w;
     route := route w;
     overview := overview w;
     pushed := pushed w;
     emitted := emitted w ++ [event] |}.

(** [void router.push(to)]: the navigation is requested and its promise
    dropped. *)
Definition router_push (to : RouteLocationRaw.t) : Eff unit := fun w =>
  (Returned (), withPushed to w).

(** [emit(event)]. *)
Definition emit (event : Emits) : Eff unit := fun w =>
  (Returned (), withEmitted event w).

(** ** The script *)

(** [ACTION_TYPES] and the union [ActionTypes] of its values. *)
Inductive ActionTypes := WORKFLOW | CREDENTIAL | FOLDER.

Definition ACTION_TYPES (key : ActionTypes) : string :=
  match key with
  | WORKFLOW => "workflow"
  | CREDENTIAL => "credential"
  | FOLDER => "folder"
  end.

(** The fields of a [UserAction] ([@n8n/design-system]) that [menu] sets. *)
Module UserAction.
Record t := mk {
  value : string;
  label : string;
  disabled : bool
}.
End UserAction.

(** The props bound to the create-workflow [N8nButton]. *)
Module ButtonProps.
Record t := mk {
  value : string;
  label : string;
  icon : option string;
  size : string;
  disabled : bool
}.
End ButtonProps.

(** [headerIcon], lines 30-38. *)
Definition headerIcon (w : World) : ProjectIcon.t :=
  let currentProject := currentProject (projectsStore w) in
  if decide (Project.type <$> currentProject = Some Personal) then
    ProjectIcon.mk "icon" "user"
  else if truthy_opt_string (currentProject ≫= Project.name) then
    default (ProjectIcon.mk "icon" "layer-group") (currentProject ≫= Project.icon)
  else
    ProjectIcon.mk "icon" "home".

(** [homeProject], line 61: [currentProject ?? personalProject]. *)
Definition homeProject (w : World) : option Project.t :=
  match currentProject (projectsStore w) with
  | Some p => Some p
  | None => personalProject (projectsStore w)
  end.

(** [showFolders], lines 63-68. *)
Definition showFolders (w : World) : bool :=
  isFoldersFeatureEnabled (settingsStore w) &&
  bool_decide (Route.name (route w) ∈ [Some PROJECTS_WORKFLOWS; Some PROJECTS_FOLDERS]).

(** [actions], lines 108-130: an object from the three action names to
    their handlers.  Any other name is looked up to [undefined]; the
    properties an object inherits from [Object.prototype] are left out,
    as the cast [action as ActionTypes] of [onSelect] leaves them out. *)
Definition actions : gmap string (string -> Eff unit) :=
  {[ ACTION_TYPES WORKFLOW := (fun projectId =>
       route ← gets route;
       router_push
         {| RouteLocationRaw.name := NEW_WORKFLOW;
            RouteLocationRaw.query := Some
              {[ "projectId" := Some projectId;
                 "parentFolderId" := Route.params route !! "folderId" ]};
            RouteLocationRaw.params := None |});
     ACTION_TYPES CREDENTIAL := (fun projectId =>
       router_push
         {| RouteLocationRaw.name := PROJECTS_CREDENTIALS;
            RouteLocationRaw.query := None;
            RouteLocationRaw.params := Some
              {[ "projectId" := projectId;
                 "credentialId" := "create" ]} |});
     ACTION_TYPES FOLDER := (fun _ => emit createFolder) ]}.

(** [onSelect], lines 132-138.  A handler that is [undefined] is only
    called, and so only throws, when there is a home project. *)
Definition onSelect (action : string) : Eff unit :=
  let executableAction := actions !! action in
  home ← gets homeProject;
  match home with
  | None => mret ()
  | Some p =>
      match executableAction with
      | Some handler => handler (Project.id p)
      | None => throw TypeError
      end
  end.

Section Collaborators.

(** [getResourcePermissions] of [@/permissions], called with the scopes
    of a project or with [undefined]; and [i18n.baseText]. *)
Variable getResourcePermissions : option (list Scope) -> PermissionsRecord.
Variable baseText : string -> string.

(** [projectName], lines 40-48. *)
Definition projectName (w : World) : option string :=
  match currentProject (projectsStore w) with
  | None => Some (baseText "projects.menu.overview")
  | Some p =>
      if decide (Project.type p = Personal) then
        Some (baseText "projects.menu.personal")
      else Project.name p
  end.

(** [projectPermissions], lines 50-52. *)
Definition projectPermissions (w : World) : ResourceOperations :=
  project (getResourcePermissions (Project.scopes <$> currentProject (projectsStore w))).

(** [showSettings], lines 54-59. *)
Definition showSettings (w : World) : bool :=
  truthy_opt_string (Route.params (route w) !! "projectId") &&
  truthy (update (projectPermissions w)) &&
  bool_decide (Project.type <$> currentProject (projectsStore w) = Some Team).

(** [createWorkflowButton], lines 77-85. *)
Definition createWorkflowButton (w : World) : ButtonProps.t :=
  {| ButtonProps.value := ACTION_TYPES WORKFLOW;
     ButtonProps.label := baseText "projects.header.create.workflow";
     ButtonProps.icon :=
       if branchReadOnly (preferences (sourceControlStore w)) then Some "lock" else None;
     ButtonProps.size := "mini";
     ButtonProps.disabled :=
       branchReadOnly (preferences (sourceControlStore w)) ||
       negb (truthy (create (workflow
         (getResourcePermissions (Project.scopes <$> homeProject w))))) |}.

(** [menu], lines 86-106: the credential item, then the folder item
    when folders are shown. *)
Definition menu (w : World) : list UserAction.t :=
  let items :=
    [ {| UserAction.value := ACTION_TYPES CREDENTIAL;
         UserAction.label := baseText "projects.header.create.credential";
         UserAction.disabled :=
           branchReadOnly (preferences (sourceControlStore w)) ||
           negb (truthy (create (credential
             (getResourcePermissions (Project.scopes <$> homeProject w))))) |} ] in
  if showFolders w then
    items ++
    [ {| UserAction.value := ACTION_TYPES FOLDER;
         UserAction.label := baseText "projects.header.create.folder";
         UserAction.disabled :=
           branchReadOnly (preferences (sourceControlStore w)) ||
           negb (truthy (create (folder
             (getResourcePermissions (Project.scopes <$> homeProject w))))) |} ]
  else items.

End Collaborators.

(** ** The template, lines 141-187 *)

(** The block of creation actions: the tooltip, the
    [ProjectCreateResource] menu and the button in its slot. *)
Record HeaderActions := {
  tooltipDisabled : bool;
  tooltipContent : string;
  createResourceActions : list UserAction.t;
  createResourceDisabled : bool;
  button : ButtonProps.t
}.

Record Rendered := {
  projectIcon : option ProjectIcon.t;
  heading : option string;
  defaultSubtitle : option string;
  headerActions : option HeaderActions;
  tabsShowSettings : bool
}.

Section Template.

Variable getResourcePermissions : option (list Scope) -> PermissionsRecord.
Variable baseText : string -> string.

Definition render (w : World) : Rendered :=
  {| projectIcon :=
       if isOverviewSubPage (overview w) then None else Some (headerIcon w);
     heading := projectName baseText w;
     defaultSubtitle :=
       match currentProject (projectsStore w) with
       | None => Some (baseText "projects.header.subtitle")
       | Some _ => None
       end;
     headerActions :=
       if decide (Route.name (route w) = Some PROJECT_SETTINGS) then None
       else Some
         {| tooltipDisabled := negb (branchReadOnly (preferences (sourceControlStore w)));
            tooltipContent := baseText "readOnlyEnv.cantAdd.any";
            createResourceActions := menu getResourcePermissions baseText w;
            createResourceDisabled := branchReadOnly (preferences (sourceControlStore w));
            button := createWorkflowButton getResourcePermissions baseText w |};
     tabsShowSettings := showSettings getResourcePermissions w |}.

End Template.

(** ** Sample collaborators and worlds *)

(** Modelled from the spec: [getResourcePermissions] is not among the
    sources; the spec gives it as a pure function from a list of scopes
    to a record of capabilities.  This instance serves the examples:
    the capability [operation] of [resource] is set when the scope
    ["resource:operation"] is listed, and [undefined] counts as no
    scope. *)
Definition scopePermissions (scopes : option (list Scope)) : PermissionsRecord :=
  let has (s : Scope) : option bool :=
    if bool_decide (s ∈ default [] scopes) then Some true else None in
  {| project :=
       {| create := has "project:create"; update := has "project:update" |};
     workflow :=
       {| create := has "workflow:create"; update := has "workflow:update" |};
     credential :=
       {| create := has "credential:create"; update := has "credential:update" |};
     folder :=
       {| create := has "folder:create"; update := has "folder:update" |} |}.

(** The identity stands for the localisation. *)
Definition keyText (key : string) : string := key.

Definition mkWorld (cur pers : option Project.t) (readOnly folders : bool)
    (r : Route.t) : World :=
  {| projectsStore := {| currentProject := cur; personalProject := pers |};
     sourceControlStore := {| preferences := {| branchReadOnly := readOnly |} |};
     settingsStore := {| isFoldersFeatureEnabled := folders |};
     route := r;
     overview := {| isOverviewSubPage := false |};
     pushed := [];
     emitted := [] |}.

Definition teamProject : Project.t :=
  {| Project.id := "team-1";
     Project.name := Some "Marketing";
     Project.type := Team;
     Project.icon := Some (ProjectIcon.mk "emoji" "rocket");
     Project.scopes := ["project:update"; "workflow:create"; "credential:create"] |}.

Definition personalOwner : Project.t :=
  {| Project.id := "personal-7";
     Project.name := Some "Ada Lovelace <ada@example.com>";
     Project.type := Personal;
     Project.icon := None;
     Project.scopes :=
       ["project:update"; "workflow:create"; "credential:create"; "folder:create"] |}.

Definition folderRoute : Route.t :=
  {| Route.name := Some PROJECTS_FOLDERS;
     Route.params := {[ "projectId" := "team-1"; "folderId" := "folder-3" ]} |}.

Definition overviewRoute : Route.t :=
  {| Route.name := Some PROJECTS_WORKFLOWS; Route.params := ∅ |}.

Definition overviewWorld : World :=
  mkWorld None (Some personalOwner) false true overviewRoute.

Definition teamWorld : World :=
  mkWorld (Some teamProject) (Some personalOwner) false true folderRoute.

Definition readOnlyWorld : World :=
  mkWorld (Some teamProject) (Some personalOwner) true true folderRoute.

Definition personalWorld : World :=
  mkWorld (Some personalOwner) (Some personalOwner) false true folderRoute.

Definition emptyWorld : World :=
  mkWorld None None false true overviewRoute.

(** ** Observations used in the statements *)

(** The create capability that guards an action, by the action's name. *)
Definition createPermission (permissions : PermissionsRecord) (action : string) :
    option bool :=
  if decide (action = ACTION_TYPES WORKFLOW) then create (workflow permissions)
  else if decide (action = ACTION_TYPES CREDENTIAL) then create (credential permissions)
  else if decide (action = ACTION_TYPES FOLDER) then create (folder permissions)
  else None.

(** "Read-only, or the create permission is absent". *)
Definition readOnlyOrNotPermitted (readOnly : bool) (permissions : PermissionsRecord)
    (action : string) : bool :=
  readOnly || negb (truthy (createPermission permissions action)).

(** The action descriptors that exist in a world: the button, the
    credential item, and the folder item when folders are shown. *)
Definition shownActions (w : World) : list string :=
  ACTION_TYPES WORKFLOW :: ACTION_TYPES CREDENTIAL ::
  (if showFolders w then [ACTION_TYPES FOLDER] else []).

Section Observations.

Variable getResourcePermissions : option (list Scope) -> PermissionsRecord.
Variable baseText : string -> string.

(** Name and [disabled] flag of every action descriptor: the button
    first, then the items of the menu in their order. *)
Definition disabledFlags (w : World) : list (string * bool) :=
  (ButtonProps.value (createWorkflowButton getResourcePermissions baseText w),
   ButtonProps.disabled (createWorkflowButton getResourcePermissions baseText w)) ::
  ((fun a => (UserAction.value a, UserAction.disabled a)) <$>
     menu getResourcePermissions baseText w).

(** The reading of "the menu never contains an action that is not
    allowed": every item of the menu is permitted and the branch is not
    read-only. *)
Definition presentsOnlyAllowed (w : World) : Prop :=
  ∀ a, a ∈ menu getResourcePermissions baseText w →
    branchReadOnly (preferences (sourceControlStore w)) = false ∧
    truthy (createPermission
      (getResourcePermissions (Project.scopes <$> homeProject w))
      (UserAction.value a)) = true.

End Observations.

(** A team project that has an icon and an empty name. *)
Definition unnamedTeam : Project.t :=
  {| Project.id := "team-2";
     Project.name := Some "";
     Project.type := Team;
     Project.icon := Some (ProjectIcon.mk "emoji" "rocket");
     Project.scopes := [] |}.

Definition unnamedTeamWorld : World :=
  mkWorld (Some unnamedTeam) None false true folderRoute.

(** ** A session of selections *)

#[global] Instance ActionTypes_eq_dec : EqDecision ActionTypes.
Proof. solve_decision. Defined.

(** The template binds [onSelect] to the click on the button and to the
    [action] event of the menu: every selection is an event handler of
    its own, run in the world the previous one left; what it returns or
    throws does not reach the next. *)
Definition selections (names : list string) (w : World) : World :=
  foldl (fun w' name => (onSelect name w').2) w names.

(** ** Truthiness *)

Lemma truthy_string_true (s : string) : truthy_string s = true ↔ s ≠ "".
Proof. unfold truthy_string. case_decide; split; congruence. Qed.

Lemma truthy_opt_string_true (v : option string) :
  truthy_opt_string v = true ↔ ∃ s, v = Some s ∧ s ≠ "".
Proof.
  destruct v as [s|]; simpl.
  - rewrite truthy_string_true. split.
    + intros Hs. by exists s.
    + by intros (s' & [= <-] & Hs).
  - split; [done | by intros (s & ? & _)].
Qed.

Lemma truthy_true (v : option bool) : truthy v = true ↔ v = Some true.
Proof. destruct v as [[]|]; simpl; split; congruence. Qed.

(** ** The header icon *)

(** C4: [headerIcon] is the user icon when the current project is
    Personal; the project's own icon, or the layer-group icon when it has
    none, when the current project is of another type and has a
    (non-empty) name; and the home icon when no project is selected. *)
Theorem headerIcon_cases (w : World) :
  (∀ p, currentProject (projectsStore w) = Some p →
        Project.type p = Personal →
        headerIcon w = ProjectIcon.mk "icon" "user") ∧
  (∀ p n, currentProject (projectsStore w) = Some p →
          Project.type p ≠ Personal →
          Project.name p = Some n → n ≠ "" →
          headerIcon w =
            match Project.icon p with
            | Some own => own
            | None => ProjectIcon.mk "icon" "layer-group"
            end) ∧
  (currentProject (projectsStore w) = None →
   headerIcon w = ProjectIcon.mk "icon" "home").
Proof.
  unfold headerIcon. split_and!.
  - intros p -> Hty. simpl. rewrite Hty. by rewrite decide_True.
  - intros p n -> Hty Hn Hne. simpl.
    rewrite decide_False by congruence.
    rewrite Hn. simpl.
    apply truthy_string_true in Hne as ->.
    by destruct (Project.icon p).
  - by intros ->.
Qed.

Lemma headerIcon_cases_witness :
  headerIcon personalWorld = ProjectIcon.mk "icon" "user" ∧
  headerIcon teamWorld = ProjectIcon.mk "emoji" "rocket" ∧
  headerIcon emptyWorld = ProjectIcon.mk "icon" "home".
Proof.
  split_and!.
  - exact (proj1 (headerIcon_cases personalWorld) personalOwner eq_refl eq_refl).
  - refine (proj1 (proj2 (headerIcon_cases teamWorld)) teamProject "Marketing"
              eq_refl _ eq_refl _); discriminate.
  - exact (proj2 (proj2 (headerIcon_cases emptyWorld)) eq_refl).
Defined.

(** The case the three above leave open: a project that is not Personal
    and has no name gets the home icon too. *)
Example headerIcon_unnamed_team :
  headerIcon
    (mkWorld (Some (Project.mk "team-2" None Team None [])) None false true folderRoute)
  = ProjectIcon.mk "icon" "home".
Proof. reflexivity. Qed.

Example projectName_overview :
  projectName keyText overviewWorld = Some "projects.menu.overview".
Proof. reflexivity. Qed.

Example projectName_team : projectName keyText teamWorld = Some "Marketing".
Proof. reflexivity. Qed.

(** ** The settings tab and the folders *)

(** C3: [showSettings] holds exactly when the params of the route hold a
    (non-empty) [projectId], the permissions resolved from the scopes of
    the current project grant [project.update], and the current project
    is a Team project; with a Personal project it is false whatever the
    permissions. *)
Theorem showSettings_iff
    (getResourcePermissions : option (list Scope) → PermissionsRecord)
    (w : World) :
  (showSettings getResourcePermissions w = true ↔
     (∃ v, Route.params (route w) !! "projectId" = Some v ∧ v ≠ "") ∧
     update (project (getResourcePermissions
       (Project.scopes <$> currentProject (projectsStore w)))) = Some true ∧
     (∃ p, currentProject (projectsStore w) = Some p ∧ Project.type p = Team)) ∧
  (∀ p, currentProject (projectsStore w) = Some p →
        Project.type p = Personal →
        showSettings getResourcePermissions w = false).
Proof.
  unfold showSettings, projectPermissions. split.
  - rewrite !andb_true_iff, truthy_opt_string_true, truthy_true, bool_decide_eq_true.
    destruct (currentProject (projectsStore w)) as [p|]; simpl.
    + split.
      * intros [[Hid Hup] [= Hty]]. eauto.
      * intros (Hid & Hup & q & [= <-] & Hty). by rewrite Hty.
    + split.
      * by intros [_ ?].
      * by intros (_ & _ & q & ? & _).
  - intros p -> Hty. simpl. rewrite Hty.
    rewrite (bool_decide_eq_false_2 (Some Personal = Some Team)) by discriminate.
    apply andb_false_r.
Qed.

Lemma showSettings_iff_witness :
  showSettings scopePermissions personalWorld = false.
Proof.
  exact (proj2 (showSettings_iff scopePermissions personalWorld)
           personalOwner eq_refl eq_refl).
Defined.

(** C7: [showFolders] holds exactly when the folders feature is enabled in
    the settings store and the route is the workflow list or the folder
    list. *)
Theorem showFolders_iff (w : World) :
  showFolders w = true ↔
    isFoldersFeatureEnabled (settingsStore w) = true ∧
    (Route.name (route w) = Some PROJECTS_WORKFLOWS ∨
     Route.name (route w) = Some PROJECTS_FOLDERS).
Proof.
  unfold showFolders.
  rewrite andb_true_iff, bool_decide_eq_true, !elem_of_cons, elem_of_nil.
  tauto.
Qed.

(** ** The creation actions and their [disabled] flags *)

Lemma not_disabled_allowed (readOnly : bool) (permissions : PermissionsRecord)
    (action : string) :
  readOnlyOrNotPermitted readOnly permissions action = false ↔
    readOnly = false ∧ truthy (createPermission permissions action) = true.
Proof.
  unfold readOnlyOrNotPermitted.
  rewrite orb_false_iff, negb_false_iff. tauto.
Qed.

Section Disabled.

Variable getResourcePermissions : option (list Scope) -> PermissionsRecord.
Variable baseText : string -> string.

Lemma disabledFlags_from (w : World) :
  disabledFlags getResourcePermissions baseText w =
    (fun action =>
       (action,
        readOnlyOrNotPermitted
          (branchReadOnly (preferences (sourceControlStore w)))
          (getResourcePermissions (Project.scopes <$> homeProject w))
          action)) <$> shownActions w.
Proof.
  unfold disabledFlags, shownActions, menu.
  by destruct (showFolders w).
Qed.

Lemma menu_values (w : World) :
  UserAction.value <$> menu getResourcePermissions baseText w =
    ACTION_TYPES CREDENTIAL :: (if showFolders w then [ACTION_TYPES FOLDER] else []).
Proof. unfold menu. by destruct (showFolders w). Qed.

Lemma menu_item_disabled (w : World) (a : UserAction.t) :
  a ∈ menu getResourcePermissions baseText w →
  UserAction.disabled a =
    readOnlyOrNotPermitted
      (branchReadOnly (preferences (sourceControlStore w)))
      (getResourcePermissions (Project.scopes <$> homeProject w))
      (UserAction.value a).
Proof.
  unfold menu. destruct (showFolders w); simpl.
  - rewrite !elem_of_cons, elem_of_nil. by intros [-> | [-> | []]].
  - rewrite !elem_of_cons, elem_of_nil. by intros [-> | []].
Qed.

End Disabled.

(** C1: whatever the read-only flag and the permissions, the [disabled]
    flag of every action descriptor (the create-workflow button, the
    credential item, and the folder item when it is shown) is the
    read-only flag or-ed with the negation of the create permission of its
    resource. *)
Theorem disabled_is_readOnly_or_not_permitted
    (getResourcePermissions : option (list Scope) → PermissionsRecord)
    (baseText : string → string) (w : World) :
  let readOnly := branchReadOnly (preferences (sourceControlStore w)) in
  let permissions := getResourcePermissions (Project.scopes <$> homeProject w) in
  disabledFlags getResourcePermissions baseText w =
    [ (ACTION_TYPES WORKFLOW, readOnly || negb (truthy (create (workflow permissions))));
      (ACTION_TYPES CREDENTIAL, readOnly || negb (truthy (create (credential permissions)))) ]
    ++ (if showFolders w
        then [ (ACTION_TYPES FOLDER, readOnly || negb (truthy (create (folder permissions)))) ]
        else []).
Proof.
  simpl. rewrite disabledFlags_from. unfold shownActions.
  by destruct (showFolders w).
Qed.

(** The template hands [menu] and [createWorkflowButton] to the creation
    block as they are, on every route but the project settings. *)
Lemma render_headerActions
    (getResourcePermissions : option (list Scope) → PermissionsRecord)
    (baseText : string → string) (w : World) :
  Route.name (route w) ≠ Some PROJECT_SETTINGS →
  ∃ block, headerActions (render getResourcePermissions baseText w) = Some block ∧
    createResourceActions block = menu getResourcePermissions baseText w ∧
    button block = createWorkflowButton getResourcePermissions baseText w ∧
    createResourceDisabled block = branchReadOnly (preferences (sourceControlStore w)).
Proof.
  intros Hname. unfold render. simpl.
  rewrite decide_False by done. by eexists.
Qed.

Example render_readOnly_menu :
  createResourceActions <$> headerActions (render scopePermissions keyText readOnlyWorld) =
    Some [ UserAction.mk "credential" "projects.header.create.credential" true;
           UserAction.mk "folder" "projects.header.create.folder" true ].
Proof. reflexivity. Qed.

(** The menu of a read-only world still holds the credential action,
    and the menu of a world whose project may not create folders still
    holds the folder action: the claim that forbidden actions are not in
    the menu fails. *)
Lemma menu_presents_forbidden_actions :
  ¬ presentsOnlyAllowed scopePermissions keyText readOnlyWorld ∧
  ¬ presentsOnlyAllowed scopePermissions keyText teamWorld.
Proof.
  split; intros Hall.
  - destruct (Hall (UserAction.mk "credential" "projects.header.create.credential" true))
      as [HreadOnly _].
    + apply list_elem_of_here.
    + discriminate HreadOnly.
  - destruct (Hall (UserAction.mk "folder" "projects.header.create.folder" true))
      as [_ Hpermitted].
    + apply list_elem_of_further, list_elem_of_here.
    + discriminate Hpermitted.
Qed.

(** C2, amended: an action that is not allowed stays in the menu and is
    disabled there.  An item of the menu is enabled exactly when the
    branch is not read-only and the scopes of the home project grant the
    create permission of its resource; the menu itself always holds the
    credential action, followed by the folder action when folders are
    shown. *)
Theorem menu_disables_forbidden_actions
    (getResourcePermissions : option (list Scope) → PermissionsRecord)
    (baseText : string → string) (w : World) :
  (∀ a, a ∈ menu getResourcePermissions baseText w →
     (UserAction.disabled a = false ↔
        branchReadOnly (preferences (sourceControlStore w)) = false ∧
        truthy (createPermission
          (getResourcePermissions (Project.scopes <$> homeProject w))
          (UserAction.value a)) = true)) ∧
  UserAction.value <$> menu getResourcePermissions baseText w =
    ACTION_TYPES CREDENTIAL :: (if showFolders w then [ACTION_TYPES FOLDER] else []).
Proof.
  split.
  - intros a Ha.
    rewrite (menu_item_disabled _ _ _ _ Ha).
    exact (not_disabled_allowed _ _ _).
  - apply menu_values.
Qed.

Lemma menu_disables_forbidden_actions_witness :
  UserAction.disabled
    (UserAction.mk "credential" "projects.header.create.credential" false) = false ↔
    branchReadOnly (preferences (sourceControlStore teamWorld)) = false ∧
    truthy (createPermission
      (scopePermissions (Project.scopes <$> homeProject teamWorld)) "credential") = true.
Proof.
  apply (proj1 (menu_disables_forbidden_actions scopePermissions keyText teamWorld)
           (UserAction.mk "credential" "projects.header.create.credential" false)).
  apply list_elem_of_here.
Defined.

(** C10: the create permissions behind the [disabled] flags are resolved
    from the scopes of the home project: those of the current project
    when there is one, and in the overview, where there is none, those of
    the personal project. *)
Theorem disabled_resolved_from_home_project
    (getResourcePermissions : option (list Scope) → PermissionsRecord)
    (baseText : string → string) (w : World) :
  (∀ p, currentProject (projectsStore w) = Some p →
     disabledFlags getResourcePermissions baseText w =
       (fun action =>
          (action,
           readOnlyOrNotPermitted
             (branchReadOnly (preferences (sourceControlStore w)))
             (getResourcePermissions (Some (Project.scopes p)))
             action)) <$> shownActions w) ∧
  (currentProject (projectsStore w) = None →
     disabledFlags getResourcePermissions baseText w =
       (fun action =>
          (action,
           readOnlyOrNotPermitted
             (branchReadOnly (preferences (sourceControlStore w)))
             (getResourcePermissions
                (Project.scopes <$> personalProject (projectsStore w)))
             action)) <$> shownActions w).
Proof.
  split.
  - intros p Hcur. rewrite disabledFlags_from.
    unfold homeProject. by rewrite Hcur.
  - intros Hcur. rewrite disabledFlags_from.
    unfold homeProject. by rewrite Hcur.
Qed.

(** In the overview of a user whose personal project grants every create
    scope, every action is enabled, although no scope comes from a current
    project. *)
Lemma disabled_resolved_from_home_project_witness :
  currentProject (projectsStore overviewWorld) = None ∧
  disabledFlags scopePermissions keyText overviewWorld =
    [("workflow", false); ("credential", false); ("folder", false)].
Proof.
  split; [reflexivity|].
  exact (proj2 (disabled_resolved_from_home_project scopePermissions keyText overviewWorld)
           eq_refl).
Defined.

(** ** Selecting an action *)

Lemma actions_workflow :
  actions !! ACTION_TYPES WORKFLOW = Some (fun projectId =>
    route ← gets route;
    router_push
      {| RouteLocationRaw.name := NEW_WORKFLOW;
         RouteLocationRaw.query := Some
           {[ "projectId" := Some projectId;
              "parentFolderId" := Route.params route !! "folderId" ]};
         RouteLocationRaw.params := None |}).
Proof. reflexivity. Qed.

Lemma actions_credential :
  actions !! ACTION_TYPES CREDENTIAL = Some (fun projectId =>
    router_push
      {| RouteLocationRaw.name := PROJECTS_CREDENTIALS;
         RouteLocationRaw.query := None;
         RouteLocationRaw.params := Some
           {[ "projectId" := projectId; "credentialId" := "create" ]} |}).
Proof. reflexivity. Qed.

Lemma actions_folder :
  actions !! ACTION_TYPES FOLDER = Some (fun _ => emit createFolder).
Proof. reflexivity. Qed.

Lemma onSelect_without_home (action : string) (w : World) :
  homeProject w = None → onSelect action w = (Returned (), w).
Proof.
  intros Hhome. unfold onSelect, mbind, Eff_bind, gets.
  by rewrite Hhome.
Qed.

Lemma onSelect_with_home (action : string) (w : World) (home : Project.t) :
  homeProject w = Some home →
  onSelect action w =
    match actions !! action with
    | Some handler => handler (Project.id home)
    | None => throw TypeError
    end w.
Proof.
  intros Hhome. unfold onSelect, mbind, Eff_bind, gets.
  by rewrite Hhome.
Qed.

Lemma homeProject_None (w : World) :
  homeProject w = None ↔
    currentProject (projectsStore w) = None ∧
    personalProject (projectsStore w) = None.
Proof.
  unfold homeProject.
  destruct (currentProject (projectsStore w)) as [p|].
  - split; [discriminate | by intros [? _]].
  - split; [by intros -> | by intros [_ ->]].
Qed.

Lemma withPushed_changes (to : RouteLocationRaw.t) (w : World) :
  withPushed to w ≠ w.
Proof.
  intros Heq. apply (f_equal pushed) in Heq. simpl in Heq.
  apply (f_equal length) in Heq. rewrite length_app in Heq. simpl in Heq. lia.
Qed.

Lemma withEmitted_changes (event : Emits) (w : World) :
  withEmitted event w ≠ w.
Proof.
  intros Heq. apply (f_equal emitted) in Heq. simpl in Heq.
  apply (f_equal length) in Heq. rewrite length_app in Heq. simpl in Heq. lia.
Qed.

(** Every handler of [actions] returns and leaves a world that differs
    from the one it started in. *)
Lemma handlers_act (a : ActionTypes) (projectId : string) (w : World) :
  ∃ (handler : string → Eff unit) w', actions !! ACTION_TYPES a = Some handler ∧
                handler projectId w = (Returned (), w') ∧ w' ≠ w.
Proof.
  destruct a.
  - eexists _, _. split; [apply actions_workflow|].
    split; [reflexivity | apply withPushed_changes].
  - eexists _, _. split; [apply actions_credential|].
    split; [reflexivity | apply withPushed_changes].
  - eexists _, _. split; [apply actions_folder|].
    split; [reflexivity | apply withEmitted_changes].
Qed.

(** C5: with neither a current nor a personal project, selecting the
    folder action returns at once: nothing is pushed on the router and
    [createFolder] is not emitted; the world is left as it was. *)
Theorem select_folder_without_home (w : World) :
  currentProject (projectsStore w) = None →
  personalProject (projectsStore w) = None →
  onSelect (ACTION_TYPES FOLDER) w = (Returned (), w) ∧
  pushed (onSelect (ACTION_TYPES FOLDER) w).2 = pushed w ∧
  emitted (onSelect (ACTION_TYPES FOLDER) w).2 = emitted w.
Proof.
  intros Hcur Hpers.
  assert (Hhome : homeProject w = None) by (by apply homeProject_None).
  by rewrite (onSelect_without_home _ _ Hhome).
Qed.

Lemma select_folder_without_home_witness :
  onSelect (ACTION_TYPES FOLDER) emptyWorld = (Returned (), emptyWorld) ∧
  pushed (onSelect (ACTION_TYPES FOLDER) emptyWorld).2 = pushed emptyWorld ∧
  emitted (onSelect (ACTION_TYPES FOLDER) emptyWorld).2 = emitted emptyWorld.
Proof.
  apply (select_folder_without_home emptyWorld); reflexivity.
Defined.

(** C6: with a home project, selecting the workflow action returns after
    one [router.push] to the new-workflow route, whose query holds the id
    of the home project as [projectId] and the [folderId] param of the
    current route as [parentFolderId]. *)
Theorem select_workflow_navigates (w : World) (home : Project.t) :
  homeProject w = Some home →
  ∃ query,
    onSelect (ACTION_TYPES WORKFLOW) w =
      (Returned (),
       withPushed
         {| RouteLocationRaw.name := NEW_WORKFLOW;
            RouteLocationRaw.query := Some query;
            RouteLocationRaw.params := None |} w) ∧
    query !! "projectId" = Some (Some (Project.id home)) ∧
    query !! "parentFolderId" = Some (Route.params (route w) !! "folderId") ∧
    ∀ key, key ≠ "projectId" → key ≠ "parentFolderId" → query !! key = None.
Proof.
  intros Hhome.
  exists {[ "projectId" := Some (Project.id home);
            "parentFolderId" := Route.params (route w) !! "folderId" ]}.
  split_and!.
  - by rewrite (onSelect_with_home _ _ _ Hhome), actions_workflow.
  - apply lookup_insert_eq.
  - rewrite lookup_insert_ne by discriminate. apply lookup_singleton_eq.
  - intros key Hid Hfolder.
    rewrite lookup_insert_ne by congruence.
    apply lookup_singleton_ne. congruence.
Qed.

Lemma select_workflow_navigates_witness :
  ∃ query,
    onSelect (ACTION_TYPES WORKFLOW) teamWorld =
      (Returned (),
       withPushed
         {| RouteLocationRaw.name := NEW_WORKFLOW;
            RouteLocationRaw.query := Some query;
            RouteLocationRaw.params := None |} teamWorld) ∧
    query !! "projectId" = Some (Some "team-1") ∧
    query !! "parentFolderId" = Some (Some "folder-3") ∧
    ∀ key, key ≠ "projectId" → key ≠ "parentFolderId" → query !! key = None.
Proof.
  exact (select_workflow_navigates teamWorld teamProject eq_refl).
Defined.

(** C8: selecting an action, whatever its name, leaves the project store,
    the source-control store and the settings store (and the route and
    the overview state) as they were; it pushes one location on the
    router, or emits [createFolder] once, or does neither.  The computed
    properties and the template are functions of the world and have no
    world to return. *)
Theorem onSelect_frame (action : string) (w : World) :
  let w' := (onSelect action w).2 in
  projectsStore w' = projectsStore w ∧
  sourceControlStore w' = sourceControlStore w ∧
  settingsStore w' = settingsStore w ∧
  route w' = route w ∧
  overview w' = overview w ∧
  ((pushed w' = pushed w ∧ emitted w' = emitted w) ∨
   ((∃ to, pushed w' = pushed w ++ [to]) ∧ emitted w' = emitted w) ∨
   (pushed w' = pushed w ∧ emitted w' = emitted w ++ [createFolder])).
Proof.
  simpl. destruct (homeProject w) as [home|] eqn:Hhome.
  - rewrite (onSelect_with_home _ _ _ Hhome).
    unfold actions.
    destruct (decide (action = ACTION_TYPES WORKFLOW)) as [->|Hw].
    { rewrite lookup_insert_eq. simpl. split_and!; try done.
      right; left. split; [by eexists | done]. }
    rewrite lookup_insert_ne by done.
    destruct (decide (action = ACTION_TYPES CREDENTIAL)) as [->|Hc].
    { rewrite lookup_insert_eq. simpl. split_and!; try done.
      right; left. split; [by eexists | done]. }
    rewrite lookup_insert_ne by done.
    destruct (decide (action = ACTION_TYPES FOLDER)) as [->|Hf].
    { rewrite lookup_singleton_eq. simpl. split_and!; try done.
      by right; right. }
    rewrite lookup_singleton_ne by done. simpl.
    split_and!; try done. by left.
  - rewrite (onSelect_without_home _ _ Hhome). simpl.
    split_and!; try done. by left.
Qed.

(** C9: every action is dispatched with the id of the current project
    when there is one, and with the id of the personal project otherwise;
    the selection leaves the world as it was exactly when there is
    neither. *)
Theorem onSelect_dispatch (a : ActionTypes) (w : World) :
  (∀ p, currentProject (projectsStore w) = Some p →
     ∃ handler : string → Eff unit, actions !! ACTION_TYPES a = Some handler ∧
                onSelect (ACTION_TYPES a) w = handler (Project.id p) w) ∧
  (∀ q, currentProject (projectsStore w) = None →
        personalProject (projectsStore w) = Some q →
     ∃ handler : string → Eff unit, actions !! ACTION_TYPES a = Some handler ∧
                onSelect (ACTION_TYPES a) w = handler (Project.id q) w) ∧
  (onSelect (ACTION_TYPES a) w = (Returned (), w) ↔
     currentProject (projectsStore w) = None ∧
     personalProject (projectsStore w) = None).
Proof.
  assert (Hdispatch : ∀ home, homeProject w = Some home →
            ∃ handler : string → Eff unit, actions !! ACTION_TYPES a = Some handler ∧
                       onSelect (ACTION_TYPES a) w = handler (Project.id home) w).
  { intros home Hhome.
    destruct (handlers_act a (Project.id home) w) as (handler & w' & Hlook & _).
    exists handler. split; [done|].
    by rewrite (onSelect_with_home _ _ _ Hhome), Hlook. }
  split_and!.
  - intros p Hcur. apply Hdispatch. unfold homeProject. by rewrite Hcur.
  - intros q Hcur Hpers. apply Hdispatch. unfold homeProject. by rewrite Hcur.
  - rewrite <- homeProject_None. split.
    + intros Hnoop. destruct (homeProject w) as [home|] eqn:Hhome; [|done].
      destruct (handlers_act a (Project.id home) w) as (handler & w' & Hlook & Hrun & Hneq).
      rewrite (onSelect_with_home _ _ _ Hhome), Hlook, Hrun in Hnoop.
      by injection Hnoop.
    + apply onSelect_without_home.
Qed.

Lemma onSelect_dispatch_witness :
  (∃ handler : string → Eff unit, actions !! ACTION_TYPES CREDENTIAL = Some handler ∧
     onSelect (ACTION_TYPES CREDENTIAL) teamWorld = handler "team-1" teamWorld) ∧
  (∃ handler : string → Eff unit, actions !! ACTION_TYPES CREDENTIAL = Some handler ∧
     onSelect (ACTION_TYPES CREDENTIAL) overviewWorld = handler "personal-7" overviewWorld).
Proof.
  split.
  - exact (proj1 (onSelect_dispatch CREDENTIAL teamWorld) teamProject eq_refl).
  - exact (proj1 (proj2 (onSelect_dispatch CREDENTIAL overviewWorld))
             personalOwner eq_refl eq_refl).
Defined.

(** A name outside [ACTION_TYPES] has no handler: with a home project
    the call throws, without one [onSelect] has returned before. *)
Example onSelect_unknown_action :
  onSelect "tag" teamWorld = (Thrown TypeError, teamWorld) ∧
  onSelect "tag" emptyWorld = (Returned (), emptyWorld).
Proof. split; reflexivity. Qed.

Example onSelect_folder_emits :
  emitted (onSelect (ACTION_TYPES FOLDER) overviewWorld).2 = [createFolder] ∧
  pushed (onSelect (ACTION_TYPES FOLDER) overviewWorld).2 = [].
Proof. split; reflexivity. Qed.

Example onSelect_credential_pushes :
  pushed (onSelect (ACTION_TYPES CREDENTIAL) overviewWorld).2 =
    [ {| RouteLocationRaw.name := PROJECTS_CREDENTIALS;
         RouteLocationRaw.query := None;
         RouteLocationRaw.params := Some
           {[ "projectId" := "personal-7"; "credentialId" := "create" ]} |} ].
Proof. reflexivity. Qed.

(** ** The heading and the icon outside the three named cases *)

(** X1: The heading is the overview label without a project and the personal
    label for a Personal project, whatever its own name; for any other
    project it is the name as stored, so that it is missing exactly for
    such a project without a name. *)
Theorem projectName_cases (baseText : string → string) (w : World) :
  (currentProject (projectsStore w) = None →
   projectName baseText w = Some (baseText "projects.menu.overview")) ∧
  (∀ p, currentProject (projectsStore w) = Some p →
        Project.type p = Personal →
        projectName baseText w = Some (baseText "projects.menu.personal")) ∧
  (∀ p, currentProject (projectsStore w) = Some p →
        Project.type p ≠ Personal →
        projectName baseText w = Project.name p) ∧
  (projectName baseText w = None ↔
     ∃ p, currentProject (projectsStore w) = Some p ∧
          Project.type p ≠ Personal ∧ Project.name p = None).
Proof.
  unfold projectName.
  destruct (currentProject (projectsStore w)) as [p|]; split_and!; try done.
  - intros q [= <-] Hty. by rewrite decide_True.
  - intros q [= <-] Hty. by rewrite decide_False.
  - case_decide as Hty; split.
    + discriminate.
    + by intros (q & [= <-] & Hne & _).
    + intros Hname. by exists p.
    + by intros (q & [= <-] & _ & Hname).
  - split; [discriminate | by intros (q & ? & _)].
Qed.

Lemma projectName_cases_witness :
  projectName keyText overviewWorld = Some "projects.menu.overview" ∧
  projectName keyText personalWorld = Some "projects.menu.personal" ∧
  projectName keyText teamWorld = Some "Marketing".
Proof.
  split_and!.
  - exact (proj1 (projectName_cases keyText overviewWorld) eq_refl).
  - exact (proj1 (proj2 (projectName_cases keyText personalWorld))
             personalOwner eq_refl eq_refl).
  - refine (proj1 (proj2 (proj2 (projectName_cases keyText teamWorld)))
              teamProject eq_refl _). discriminate.
Defined.

(** X2: A project that is not Personal and whose name is null or empty gets
    the home icon of the overview; the icon it carries is not used. *)
Theorem headerIcon_without_name (w : World) (p : Project.t) :
  currentProject (projectsStore w) = Some p →
  Project.type p ≠ Personal →
  Project.name p = None ∨ Project.name p = Some "" →
  headerIcon w = ProjectIcon.mk "icon" "home".
Proof.
  intros Hcur Hty Hname. unfold headerIcon. rewrite Hcur. simpl.
  rewrite decide_False by congruence.
  by destruct Hname as [-> | ->].
Qed.

Lemma headerIcon_without_name_witness :
  headerIcon unnamedTeamWorld = ProjectIcon.mk "icon" "home".
Proof.
  refine (headerIcon_without_name unnamedTeamWorld unnamedTeam eq_refl _
            (or_intror eq_refl)).
  discriminate.
Defined.

(** ** More on selecting an action *)

(** [onSelect] in one piece: what it returns and the world it leaves. *)
Lemma onSelect_run (action : string) (w : World) :
  onSelect action w =
    match homeProject w with
    | None => (Returned (), w)
    | Some home =>
        if decide (action = ACTION_TYPES WORKFLOW) then
          (Returned (),
           withPushed
             {| RouteLocationRaw.name := NEW_WORKFLOW;
                RouteLocationRaw.query := Some
                  {[ "projectId" := Some (Project.id home);
                     "parentFolderId" := Route.params (route w) !! "folderId" ]};
                RouteLocationRaw.params := None |} w)
        else if decide (action = ACTION_TYPES CREDENTIAL) then
          (Returned (),
           withPushed
             {| RouteLocationRaw.name := PROJECTS_CREDENTIALS;
                RouteLocationRaw.query := None;
                RouteLocationRaw.params := Some
                  {[ "projectId" := Project.id home;
                     "credentialId" := "create" ]} |} w)
        else if decide (action = ACTION_TYPES FOLDER) then
          (Returned (), withEmitted createFolder w)
        else (Thrown TypeError, w)
    end.
Proof.
  destruct (homeProject w) as [home|] eqn:Hhome.
  - rewrite (onSelect_with_home _ _ _ Hhome). unfold actions.
    case_decide as Hw; [subst; by rewrite lookup_insert_eq|].
    rewrite lookup_insert_ne by done.
    case_decide as Hc; [subst; by rewrite lookup_insert_eq|].
    rewrite lookup_insert_ne by done.
    case_decide as Hf; [subst; by rewrite lookup_singleton_eq|].
    by rewrite lookup_singleton_ne.
  - by apply onSelect_without_home.
Qed.

(** X3: With a home project, selecting the credential action returns after
    one [router.push] to the credentials route of the project, with the
    params [projectId], the id of the home project, and [credentialId],
    the word [create], and without a query; nothing is emitted. *)
Theorem select_credential_navigates (w : World) (home : Project.t) :
  homeProject w = Some home →
  ∃ params,
    onSelect (ACTION_TYPES CREDENTIAL) w =
      (Returned (),
       withPushed
         {| RouteLocationRaw.name := PROJECTS_CREDENTIALS;
            RouteLocationRaw.query := None;
            RouteLocationRaw.params := Some params |} w) ∧
    params !! "projectId" = Some (Project.id home) ∧
    params !! "credentialId" = Some "create" ∧
    (∀ key, key ≠ "projectId" → key ≠ "credentialId" → params !! key = None) ∧
    emitted (onSelect (ACTION_TYPES CREDENTIAL) w).2 = emitted w.
Proof.
  intros Hhome.
  exists {[ "projectId" := Project.id home; "credentialId" := "create" ]}.
  split_and!.
  - by rewrite onSelect_run, Hhome.
  - apply lookup_insert_eq.
  - rewrite lookup_insert_ne by discriminate. apply lookup_singleton_eq.
  - intros key Hid Hcred.
    rewrite lookup_insert_ne by congruence.
    apply lookup_singleton_ne. congruence.
  - by rewrite onSelect_run, Hhome.
Qed.

Lemma select_credential_navigates_witness :
  ∃ params,
    onSelect (ACTION_TYPES CREDENTIAL) overviewWorld =
      (Returned (),
       withPushed
         {| RouteLocationRaw.name := PROJECTS_CREDENTIALS;
            RouteLocationRaw.query := None;
            RouteLocationRaw.params := Some params |} overviewWorld) ∧
    params !! "projectId" = Some "personal-7" ∧
    params !! "credentialId" = Some "create" ∧
    (∀ key, key ≠ "projectId" → key ≠ "credentialId" → params !! key = None) ∧
    emitted (onSelect (ACTION_TYPES CREDENTIAL) overviewWorld).2 = emitted overviewWorld.
Proof.
  exact (select_credential_navigates overviewWorld personalOwner eq_refl).
Defined.

(** X4: With a home project, selecting the folder action returns after
    emitting [createFolder] once; the router is not called, and the id of
    the project goes nowhere. *)
Theorem select_folder_emits (w : World) (home : Project.t) :
  homeProject w = Some home →
  onSelect (ACTION_TYPES FOLDER) w = (Returned (), withEmitted createFolder w) ∧
  emitted (onSelect (ACTION_TYPES FOLDER) w).2 = emitted w ++ [createFolder] ∧
  pushed (onSelect (ACTION_TYPES FOLDER) w).2 = pushed w.
Proof.
  intros Hhome. by rewrite onSelect_run, Hhome.
Qed.

Lemma select_folder_emits_witness :
  onSelect (ACTION_TYPES FOLDER) teamWorld =
    (Returned (), withEmitted createFolder teamWorld) ∧
  emitted (onSelect (ACTION_TYPES FOLDER) teamWorld).2 =
    emitted teamWorld ++ [createFolder] ∧
  pushed (onSelect (ACTION_TYPES FOLDER) teamWorld).2 = pushed teamWorld.
Proof.
  exact (select_folder_emits teamWorld teamProject eq_refl).
Defined.

(** X5: Every action the component offers has a handler: selecting the value
    of the button or of any item of the menu returns, in every world and
    for every resolver of permissions. *)
Theorem offered_actions_have_handlers
    (getResourcePermissions : option (list Scope) → PermissionsRecord)
    (baseText : string → string) (w : World) :
  (onSelect
     (ButtonProps.value (createWorkflowButton getResourcePermissions baseText w)) w).1
    = Returned () ∧
  ∀ a, a ∈ menu getResourcePermissions baseText w →
       (onSelect (UserAction.value a) w).1 = Returned ().
Proof.
  assert (Hnames : ∀ k, (onSelect (ACTION_TYPES k) w).1 = Returned ()).
  { intros k. rewrite onSelect_run.
    destruct (homeProject w); [|done]. by destruct k. }
  split; [apply (Hnames WORKFLOW)|].
  intros a Ha.
  assert (Hvalue : UserAction.value a ∈
            UserAction.value <$> menu getResourcePermissions baseText w)
    by (by apply list_elem_of_fmap_2).
  rewrite menu_values in Hvalue.
  apply elem_of_cons in Hvalue as [-> | Hvalue]; [apply (Hnames CREDENTIAL)|].
  destruct (showFolders w).
  - apply elem_of_cons in Hvalue as [-> | Hvalue]; [apply (Hnames FOLDER)|].
    by apply elem_of_nil in Hvalue.
  - by apply elem_of_nil in Hvalue.
Qed.

Lemma offered_actions_have_handlers_witness :
  (onSelect "folder" readOnlyWorld).1 = Returned ().
Proof.
  apply (proj2 (offered_actions_have_handlers scopePermissions keyText readOnlyWorld)
           (UserAction.mk "folder" "projects.header.create.folder" true)).
  apply list_elem_of_further, list_elem_of_here.
Defined.

(** X6: A selection reads the id of the home project and the [folderId] of
    the route, and nothing else: in two worlds that agree on these it
    returns or throws alike and adds the same locations and events.  In
    particular it checks neither the read-only flag nor a permission. *)
Theorem onSelect_reads_id_and_folder (action : string) (w1 w2 : World) :
  Project.id <$> homeProject w1 = Project.id <$> homeProject w2 →
  Route.params (route w1) !! "folderId" = Route.params (route w2) !! "folderId" →
  (onSelect action w1).1 = (onSelect action w2).1 ∧
  ∃ tos events,
    pushed (onSelect action w1).2 = pushed w1 ++ tos ∧
    pushed (onSelect action w2).2 = pushed w2 ++ tos ∧
    emitted (onSelect action w1).2 = emitted w1 ++ events ∧
    emitted (onSelect action w2).2 = emitted w2 ++ events.
Proof.
  intros Hid Hfolder. rewrite !onSelect_run.
  destruct (homeProject w1) as [h1|], (homeProject w2) as [h2|];
    simpl in Hid; try discriminate.
  - injection Hid as Hid. rewrite Hid, Hfolder.
    repeat case_decide; simpl; (split; [done|]).
    + eexists [_], []. by rewrite !app_nil_r.
    + eexists [_], []. by rewrite !app_nil_r.
    + eexists [], [_]. by rewrite !app_nil_r.
    + exists [], []. by rewrite !app_nil_r.
  - split; [done|]. exists [], []. by rewrite !app_nil_r.
Qed.

Lemma onSelect_reads_id_and_folder_witness :
  (onSelect "workflow" teamWorld).1 = (onSelect "workflow" readOnlyWorld).1 ∧
  ∃ tos events,
    pushed (onSelect "workflow" teamWorld).2 = pushed teamWorld ++ tos ∧
    pushed (onSelect "workflow" readOnlyWorld).2 = pushed readOnlyWorld ++ tos ∧
    emitted (onSelect "workflow" teamWorld).2 = emitted teamWorld ++ events ∧
    emitted (onSelect "workflow" readOnlyWorld).2 = emitted readOnlyWorld ++ events.
Proof.
  exact (onSelect_reads_id_and_folder "workflow" teamWorld readOnlyWorld eq_refl eq_refl).
Defined.

(** ** Sessions *)

Lemma selections_cons (name : string) (names : list string) (w : World) :
  selections (name :: names) w = selections names (onSelect name w).2.
Proof. reflexivity. Qed.

(** One selection adds at most one entry to the two logs together and
    touches nothing else. *)
Lemma onSelect_step (action : string) (w : World) :
  ∃ tos events,
    (onSelect action w).2 =
      {| projectsStore := projectsStore w;
         sourceControlStore := sourceControlStore w;
         settingsStore := settingsStore w;
         route := route w;
         overview := overview w;
         pushed := pushed w ++ tos;
         emitted := emitted w ++ events |} ∧
    (length tos + length events ≤ 1)%nat.
Proof.
  rewrite onSelect_run.
  destruct (homeProject w) as [home|]; repeat case_decide; simpl.
  - eexists [_], []. rewrite app_nil_r. split; [done | simpl; lia].
  - eexists [_], []. rewrite app_nil_r. split; [done | simpl; lia].
  - eexists [], [_]. rewrite app_nil_r. split; [done | simpl; lia].
  - exists [], []. rewrite !app_nil_r. split; [by destruct w | simpl; lia].
  - exists [], []. rewrite !app_nil_r. split; [by destruct w | simpl; lia].
Qed.

(** X7: However many actions are selected, and whatever their names, the
    stores, the route and the overview state stay as they were, the logs
    keep their entries, and they gain at most one entry per selection. *)
Theorem selections_frame (names : list string) (w : World) :
  ∃ tos events,
    selections names w =
      {| projectsStore := projectsStore w;
         sourceControlStore := sourceControlStore w;
         settingsStore := settingsStore w;
         route := route w;
         overview := overview w;
         pushed := pushed w ++ tos;
         emitted := emitted w ++ events |} ∧
    (length tos + length events ≤ length names)%nat.
Proof.
  revert w. induction names as [|name names IH]; intros w.
  - exists [], []. rewrite !app_nil_r. split; [by destruct w | simpl; lia].
  - rewrite selections_cons.
    destruct (onSelect_step name w) as (tos1 & events1 & -> & Hone).
    destruct (IH {| projectsStore := projectsStore w;
                    sourceControlStore := sourceControlStore w;
                    settingsStore := settingsStore w;
                    route := route w;
                    overview := overview w;
                    pushed := pushed w ++ tos1;
                    emitted := emitted w ++ events1 |})
      as (tos2 & events2 & -> & Hrest).
    exists (tos1 ++ tos2), (events1 ++ events2). simpl.
    rewrite !app_assoc. split; [done|].
    rewrite !length_app. lia.
Qed.

(** X8: Without a home project a session changes nothing, whatever is
    selected and however often. *)
Theorem selections_without_home (names : list string) (w : World) :
  homeProject w = None → selections names w = w.
Proof.
  intros Hhome. induction names as [|name names IH]; [done|].
  by rewrite selections_cons, (onSelect_without_home _ _ Hhome).
Qed.

Lemma selections_without_home_witness :
  selections ["workflow"; "folder"; "credential"; "workflow"] emptyWorld = emptyWorld.
Proof.
  exact (selections_without_home ["workflow"; "folder"; "credential"; "workflow"]
           emptyWorld eq_refl).
Defined.

(** X9: With a home project no selection of an action is lost or doubled:
    after a session the router has been called once more for every
    workflow or credential selected, and [createFolder] emitted once more
    for every folder selected. *)
Theorem selections_count (kinds : list ActionTypes) (w : World) (home : Project.t) :
  homeProject w = Some home →
  length (pushed (selections (ACTION_TYPES <$> kinds) w)) =
    (length (pushed w) + length (filter (fun k => k ≠ FOLDER) kinds))%nat ∧
  length (emitted (selections (ACTION_TYPES <$> kinds) w)) =
    (length (emitted w) + length (filter (fun k => k = FOLDER) kinds))%nat.
Proof.
  revert w. induction kinds as [|k kinds IH]; intros w Hhome.
  - simpl. lia.
  - rewrite fmap_cons, selections_cons, onSelect_run, Hhome.
    rewrite !filter_cons.
    destruct k; simpl.
    + destruct (IH (withPushed
        {| RouteLocationRaw.name := NEW_WORKFLOW;
           RouteLocationRaw.query := Some
             {[ "projectId" := Some (Project.id home);
                "parentFolderId" := Route.params (route w) !! "folderId" ]};
           RouteLocationRaw.params := None |} w) Hhome) as [-> ->].
      simpl. rewrite length_app. simpl. lia.
    + destruct (IH (withPushed
        {| RouteLocationRaw.name := PROJECTS_CREDENTIALS;
           RouteLocationRaw.query := None;
           RouteLocationRaw.params := Some
             {[ "projectId" := Project.id home; "credentialId" := "create" ]} |} w)
        Hhome) as [-> ->].
      simpl. rewrite length_app. simpl. lia.
    + destruct (IH (withEmitted createFolder w) Hhome) as [-> ->].
      simpl. rewrite length_app. simpl. lia.
Qed.

Lemma selections_count_witness :
  length (pushed (selections (ACTION_TYPES <$> [WORKFLOW; FOLDER; CREDENTIAL; FOLDER])
                    teamWorld)) = 2 ∧
  length (emitted (selections (ACTION_TYPES <$> [WORKFLOW; FOLDER; CREDENTIAL; FOLDER])
                     teamWorld)) = 2.
Proof.
  exact (selections_count [WORKFLOW; FOLDER; CREDENTIAL; FOLDER] teamWorld teamProject
           eq_refl).
Defined.

(** ** The button and the template *)

(** X10: The button carries the lock icon exactly when the branch is
    read-only, and then it is disabled; a button disabled without a lock
    is one whose workflow create permission is missing on a writable
    branch. *)
Theorem button_lock
    (getResourcePermissions : option (list Scope) → PermissionsRecord)
    (baseText : string → string) (w : World) :
  let props := createWorkflowButton getResourcePermissions baseText w in
  (ButtonProps.icon props = Some "lock" ↔
     branchReadOnly (preferences (sourceControlStore w)) = true) ∧
  (ButtonProps.icon props = Some "lock" → ButtonProps.disabled props = true) ∧
  (ButtonProps.icon props = None ∧ ButtonProps.disabled props = true ↔
     branchReadOnly (preferences (sourceControlStore w)) = false ∧
     truthy (create (workflow
       (getResourcePermissions (Project.scopes <$> homeProject w)))) = false).
Proof.
  simpl.
  destruct (branchReadOnly (preferences (sourceControlStore w))); simpl.
  - split_and!; [done | done |]. split; [by intros [? _] | by intros [? _]].
  - rewrite negb_true_iff. split_and!; [done | done |]. tauto.
Qed.

Lemma button_lock_witness :
  ButtonProps.disabled (createWorkflowButton scopePermissions keyText readOnlyWorld) = true.
Proof.
  exact (proj1 (proj2 (button_lock scopePermissions keyText readOnlyWorld)) eq_refl).
Defined.

(** X11: The block of creation actions is left out on the project settings
    route only.  Where it is rendered, the tooltip is active exactly when
    the menu as a whole is disabled, that is on a read-only branch, and
    then the button shows the lock and the button and every item of the
    menu are disabled. *)
Theorem render_creation_block
    (getResourcePermissions : option (list Scope) → PermissionsRecord)
    (baseText : string → string) (w : World) :
  (headerActions (render getResourcePermissions baseText w) = None ↔
     Route.name (route w) = Some PROJECT_SETTINGS) ∧
  ∀ block, headerActions (render getResourcePermissions baseText w) = Some block →
    tooltipDisabled block = negb (createResourceDisabled block) ∧
    (createResourceDisabled block = true →
       ButtonProps.icon (button block) = Some "lock" ∧
       ButtonProps.disabled (button block) = true ∧
       ∀ a, a ∈ createResourceActions block → UserAction.disabled a = true).
Proof.
  unfold render. simpl. case_decide as Hname.
  - split; [done|]. intros block; discriminate.
  - split; [split; [discriminate | done]|].
    intros block [= <-]. simpl. split; [done|].
    intros HreadOnly. rewrite HreadOnly. split_and!; [done | done |].
    intros a Ha. rewrite (menu_item_disabled _ _ _ _ Ha).
    unfold readOnlyOrNotPermitted. by rewrite HreadOnly.
Qed.

Lemma render_creation_block_witness :
  ∃ block, headerActions (render scopePermissions keyText readOnlyWorld) = Some block ∧
    tooltipDisabled block = false ∧
    ButtonProps.icon (button block) = Some "lock" ∧
    ∀ a, a ∈ createResourceActions block → UserAction.disabled a = true.
Proof.
  eexists. split; [reflexivity|].
  destruct (proj2 (render_creation_block scopePermissions keyText readOnlyWorld)
              _ eq_refl) as [Htip Hall].
  destruct (Hall eq_refl) as (Hicon & _ & Hitems).
  split_and!; [exact Htip | exact Hicon | exact Hitems].
Defined.


